(** * lks-storage: the batch downloader of [fetch.py]

    A shallow embedding of [fetch.py] and the properties of its three
    functions ([download_file], [sanitize_filename], [main]) and of the
    script body that calls them.

    Conventions of the model.
    - A Python [str] is the list of its Unicode code points ([list N]);
      literals of the source are written with [lit].
    - The JSON decoder, the remote servers and the decoding of text files
      are parameters of the development (an [environment]): the code only
      calls them.
    - The file system is a finite set of directory paths and a finite map
      from file paths to contents; a path is the string the program passes
      to the operating system.
    - Everything the program does to the outside world besides the file
      system (requests, console lines, pauses) is appended to a trace. *)

From Stdlib Require Import NArith Ascii String.
From Stdlib.Strings Require Import Byte.
From stdpp Require Import gmap list.

Local Open Scope N_scope.

(** ** Python strings *)

Abbreviation pystr := (list N).
Abbreviation bytes := (list Byte.byte).

(** The code points of an ASCII literal of the source. *)
Definition lit (s : string) : pystr :=
  N_of_ascii <$> list_ascii_of_string s.

(** The characters the source names, by code point: the less-than sign,
    the greater-than sign, the colon, the double quote, the slash, the
    backslash, the vertical bar, the question mark, the asterisk and the
    underscore. *)
Module Chr.
Definition lt : N := 60.
Definition gt : N := 62.
Definition colon : N := 58.
Definition dquote : N := 34.
Definition slash : N := 47.
Definition backslash : N := 92.
Definition bar : N := 124.
Definition question : N := 63.
Definition star : N := 42.
Definition underscore : N := 95.
End Chr.

(** [s.replace(old, new)] for one-character [old] and [new], the only way
    the program calls it: every occurrence is replaced. *)
Definition str_replace (old new : N) (s : pystr) : pystr :=
  (λ c, if decide (c = old) then new else c) <$> s.

(** [s.endswith(t)]: [t] is a suffix of [s]. *)
Definition endswith (s t : pystr) : bool :=
  bool_decide (t `suffix_of` s).

(** [s.lstrip(c)] and [s.rstrip(c)] for a one-character [c]. *)
Fixpoint lstrip (c : N) (s : pystr) : pystr :=
  match s with
  | x :: rest => if decide (x = c) then lstrip c rest else s
  | [] => []
  end.

Definition rstrip (c : N) (s : pystr) : pystr :=
  reverse (lstrip c (reverse s)).

(** What is left of [s] from its first occurrence of [c] on. *)
Fixpoint from_first (c : N) (s : pystr) : pystr :=
  match s with
  | x :: rest => if decide (x = c) then s else from_first c rest
  | [] => []
  end.

(** ** [sanitize_filename] *)

Definition invalid_chars : list N :=
  [Chr.lt; Chr.gt; Chr.colon; Chr.dquote; Chr.slash; Chr.backslash;
   Chr.bar; Chr.question; Chr.star].

(** [for char in invalid_chars: filename = filename.replace(char, '_')] *)
Definition sanitize_filename (filename : pystr) : pystr :=
  foldl (λ filename char, str_replace char Chr.underscore filename)
        filename invalid_chars.

(** The sanitizer as the specification words it: each character of the
    disallowed set (less-than, greater-than, colon, double quote, slash,
    backslash, vertical bar, question mark, asterisk) becomes an
    underscore, every other character stays. *)
Definition disallowed_set : list N := [60; 62; 58; 34; 47; 92; 124; 63; 42].

Definition disallowed (c : N) : bool :=
  bool_decide (c ∈ disallowed_set).

Definition sanitize_char (c : N) : N :=
  if disallowed c then Chr.underscore else c.

Definition sanitize_spec (s : pystr) : pystr := sanitize_char <$> s.

(** ** JSON values, as [json.loads] builds them

    An object is kept as the list of its members in document order; a
    repeated key is resolved as Python's [dict] does (the last one wins).
    The program only ever tests a number for truth, so the model keeps of a
    number whether it is zero. *)
#[local] Unset Elimination Schemes.
Inductive json : Type :=
| JNull
| JBool (b : bool)
| JNum (zero : bool)
| JStr (s : pystr)
| JArr (items : list json)
| JObj (members : list (pystr * json)).
#[local] Set Elimination Schemes.

(** ** Exceptions, results, the outside world *)

Inductive exn : Type :=
| AttributeError
| TypeError
| JSONDecodeError
| UnicodeDecodeError
| FileNotFoundError
| FileExistsError
| IsADirectoryError
| ConnectionError
| HTTPError (status : N)
| ChunkedEncodingError.

Inductive result (A : Type) : Type :=
| Ok (a : A)
| Raise (e : exn).
Arguments Ok {A} a.
Arguments Raise {A} e.

(** What the program prints. The wording is in the source; the model keeps
    which line it is and the values it shows. *)
Inductive console : Type :=
| MsgDownloaded (destination_path : pystr)
| MsgErrorDownloading (url : pystr) (e : exn)
| MsgProcessingCourse (course_title : pystr)
| MsgCompleted
| MsgFileNotFound (json_file : pystr)
| MsgErrorReading (e : exn)
| MsgNoInput
| MsgHelp
| MsgInvalidJson
| MsgErrorOccurred (e : exn).

(** [EvGet url]: [requests.get(url, stream=True)] was called.
    [EvSleep]: [time.sleep(0.5)] was called. *)
Inductive event : Type :=
| EvGet (url : pystr)
| EvPrint (line : console)
| EvSleep.

(** What a server answers to a request: the transport fails, or a response
    arrives with a status and a body that is read chunk by chunk; the
    stream either ends after the chunks ([complete]) or breaks after
    them. *)
Inductive http_result : Type :=
| Unreachable
| Response (status : N) (chunks : list bytes) (complete : bool).

Definition body (chunks : list bytes) : bytes := concat chunks.

(** The parts of the run-time the program calls and does not define: the
    JSON decoder ([None]: the text is not well-formed), the remote servers
    (the answer may depend on everything that happened before), and the
    decoding of a text file's bytes ([None]: not valid UTF-8). *)
Record environment : Type := {
  json_loads : pystr → option json;
  requests_get : list event → pystr → http_result;
  decode_text : bytes → option pystr
}.

Record world : Type := {
  dirs : gset pystr;
  files : gmap pystr bytes;
  trace : list event
}.

Definition with_dirs (d : gset pystr) (w : world) : world :=
  {| dirs := d; files := files w; trace := trace w |}.
Definition with_files (f : gmap pystr bytes) (w : world) : world :=
  {| dirs := dirs w; files := f; trace := trace w |}.
Definition emit (ev : event) (w : world) : world :=
  {| dirs := dirs w; files := files w; trace := trace w ++ [ev] |}.

#[export] Instance result_ret : MRet result := λ A a, Ok a.

#[export] Instance result_bind : MBind result := λ A B f r,
  match r with
  | Ok a => f a
  | Raise e => Raise e
  end.

(** ** Computations: state and exceptions *)

Definition M (A : Type) : Type := world → result A * world.

#[export] Instance M_ret : MRet M := λ A a w, (Ok a, w).

#[export] Instance M_bind : MBind M := λ A B f m w,
  match m w with
  | (Ok a, w') => f a w'
  | (Raise e, w') => (Raise e, w')
  end.

Definition raise {A} (e : exn) : M A := λ w, (Raise e, w).

Definition lift {A} (r : result A) : M A := λ w, (r, w).

(** [try: body  except Exception as e: handler(e)] *)
Definition try_except {A} (body : M A) (handler : exn → M A) : M A := λ w,
  match body w with
  | (Ok a, w') => (Ok a, w')
  | (Raise e, w') => handler e w'
  end.

(** [for x in xs: body(x)] *)
Fixpoint for_each {A} (xs : list A) (body : A → M unit) : M unit :=
  match xs with
  | [] => mret tt
  | x :: rest => body x;; for_each rest body
  end.

Definition print (line : console) : M unit := λ w, (Ok tt, emit (EvPrint line) w).

(** [time.sleep(0.5)] *)
Definition sleep : M unit := λ w, (Ok tt, emit EvSleep w).

(** ** The Python run-time on JSON values *)

(** [d[key]] on the members of an object. *)
Fixpoint dict_lookup (key : pystr) (members : list (pystr * json)) : option json :=
  match members with
  | [] => None
  | (k, v) :: rest =>
      match dict_lookup key rest with
      | Some v' => Some v'
      | None => if decide (k = key) then Some v else None
      end
  end.

(** [obj.get(key, default)]: only a [dict] has the method. *)
Definition py_get (obj : json) (key : pystr) (fallback : json) : result json :=
  match obj with
  | JObj members => Ok (default fallback (dict_lookup key members))
  | _ => Raise AttributeError
  end.

(** The keys of a [dict], in the order of their first insertion. *)
Definition dict_keys (members : list (pystr * json)) : list pystr :=
  foldl (λ keys kv, if decide (kv.1 ∈ keys) then keys else keys ++ [kv.1])
        [] members.

(** [for x in v]: the values [v] yields, or [TypeError]. *)
Definition py_iter (v : json) : result (list json) :=
  match v with
  | JArr items => Ok items
  | JObj members => Ok (JStr <$> dict_keys members)
  | JStr s => Ok ((λ c, JStr [c]) <$> s)
  | _ => Raise TypeError
  end.

(** The truth value of [v], as [not v] tests it. *)
Definition py_truthy (v : json) : bool :=
  match v with
  | JNull => false
  | JBool b => b
  | JNum zero => negb zero
  | JStr s => negb (bool_decide (s = []))
  | JArr items => negb (bool_decide (items = []))
  | JObj members => negb (bool_decide (members = []))
  end.

(** [s.endswith(suffix)] on a [str] [s]: the argument must be a [str]. *)
Definition str_endswith (s : pystr) (suffix : json) : result bool :=
  match suffix with
  | JStr t => Ok (endswith s t)
  | _ => Raise TypeError
  end.

(** ** The operating system *)

(** [os.path.join(a, b)] (POSIX) *)
Definition path_join (a b : pystr) : pystr :=
  if bool_decide (head b = Some Chr.slash) then b
  else if bool_decide (a = []) || endswith a [Chr.slash] then a ++ b
  else a ++ [Chr.slash] ++ b.

(** [os.path.dirname(p)] (POSIX): everything up to the last slash, without
    trailing slashes unless it consists of slashes only. *)
Definition dirname (p : pystr) : pystr :=
  let head := reverse (from_first Chr.slash (reverse p)) in
  if forallb (λ c, bool_decide (c = Chr.slash)) head then head
  else rstrip Chr.slash head.

(** [os.makedirs(p, exist_ok=True)]: afterwards [p] is a directory; an
    existing directory is accepted, a regular file in its place is not. *)
Definition os_makedirs (p : pystr) : M unit := λ w,
  if bool_decide (p = []) then (Raise FileNotFoundError, w)
  else if bool_decide (is_Some (files w !! p)) then (Raise FileExistsError, w)
  else (Ok tt, with_dirs ({[p]} ∪ dirs w) w).

(** [open(p, 'wb')]: the file is created or truncated. It fails on a
    directory, and when the directory that should hold [p] is missing. *)
Definition open_wb (p : pystr) : M unit := λ w,
  if bool_decide (p = []) then (Raise FileNotFoundError, w)
  else if endswith p [Chr.slash] || bool_decide (p ∈ dirs w)
  then (Raise IsADirectoryError, w)
  else if bool_decide (dirname p = []) || bool_decide (dirname p ∈ dirs w)
  then (Ok tt, with_files (<[p := []]> (files w)) w)
  else (Raise FileNotFoundError, w).

(** [file.write(chunk)] on the file opened at [p]. *)
Definition file_write (p : pystr) (chunk : bytes) : M unit := λ w,
  (Ok tt, with_files (alter (λ old, old ++ chunk) p (files w)) w).

(** [open(p, 'r', encoding='utf-8')] followed by [read()]. *)
Definition read_text (E : environment) (p : pystr) : M pystr := λ w,
  match files w !! p with
  | Some bytes =>
      match decode_text E bytes with
      | Some text => (Ok text, w)
      | None => (Raise UnicodeDecodeError, w)
      end
  | None =>
      if bool_decide (p ∈ dirs w) then (Raise IsADirectoryError, w)
      else (Raise FileNotFoundError, w)
  end.

(** [requests.get(url, stream=True)] *)
Definition http_get (E : environment) (url : pystr) : M (N * list bytes * bool) := λ w,
  match requests_get E (trace w) url with
  | Unreachable => (Raise ConnectionError, emit (EvGet url) w)
  | Response status chunks complete =>
      (Ok (status, chunks, complete), emit (EvGet url) w)
  end.

(** [response.raise_for_status()]: statuses 400 to 599 raise. *)
Definition raise_for_status (status : N) : M unit :=
  if bool_decide (400 ≤ status < 600) then raise (HTTPError status)
  else mret tt.

(** The end of [for chunk in response.iter_content(chunk_size=8192)]: a
    stream that broke raises once the chunks that arrived are consumed. *)
Definition stream_end (complete : bool) : M unit :=
  if complete then mret tt else raise ChunkedEncodingError.

(** ** [download_file] *)

(** Lines 12 to 24: the [try] block. *)
Definition download_attempt (E : environment) (url destination_path : pystr) : M bool :=
  '(status, chunks, complete) ← http_get E url;
  raise_for_status status;;
  os_makedirs (dirname destination_path);;
  open_wb destination_path;;
  for_each chunks (file_write destination_path);;
  stream_end complete;;
  print (MsgDownloaded destination_path);;
  mret true.

Definition download_file (E : environment) (url destination_path : pystr) : M bool :=
  try_except
    (download_attempt E url destination_path)
    (λ e, print (MsgErrorDownloading url e);; mret false).

(** ** [main] *)

(** [sanitize_filename] called on an arbitrary value: [replace] is a method
    of [str] only. *)
Definition py_sanitize_filename (v : json) : result pystr :=
  match v with
  | JStr filename => Ok (sanitize_filename filename)
  | _ => Raise AttributeError
  end.

(** Line 52: [data.get("data", [])], as the loop iterates it. *)
Definition catalog_courses (data : json) : result (list json) :=
  courses ← py_get data (lit "data") (JArr []);
  py_iter courses.

(** Line 53: [sanitize_filename(course.get("title", "Unknown"))] *)
Definition course_title_of (course : json) : result pystr :=
  title ← py_get course (lit "title") (JStr (lit "Unknown"));
  py_sanitize_filename title.

(** Line 62: [course.get("materials", [])], as the loop iterates it. *)
Definition course_materials (course : json) : result (list json) :=
  materials ← py_get course (lit "materials") (JArr []);
  py_iter materials.

(** Line 63: [sanitize_filename(material.get("fileName", "unknown_file"))] *)
Definition file_name_of (material : json) : result pystr :=
  name ← py_get material (lit "fileName") (JStr (lit "unknown_file"));
  py_sanitize_filename name.

(** Line 64: [material.get("link", "")] *)
Definition file_link_of (material : json) : result json :=
  py_get material (lit "link") (JStr []).

(** Line 67: [not file_link or file_link.endswith(course.get("uuid", ""))].
    A value that is true and is not a [str] has no [endswith]. *)
Definition is_placeholder (course file_link : json) : result bool :=
  if negb (py_truthy file_link) then Ok true
  else
    match file_link with
    | JStr link =>
        uuid ← py_get course (lit "uuid") (JStr []);
        str_endswith link uuid
    | _ => Raise AttributeError
    end.

(** Lines 63 to 77: the body of the inner loop. Where line 74 is reached
    [file_link] is a [str], [endswith] having been called on it. *)
Definition process_material (E : environment) (course : json) (course_dir : pystr)
    (material : json) : M unit :=
  file_name ← lift (file_name_of material);
  file_link ← lift (file_link_of material);
  skip ← lift (is_placeholder course file_link);
  if skip : bool then mret tt
  else
    let file_path := path_join course_dir file_name in
    match file_link with
    | JStr url => download_file E url file_path;; sleep
    | _ => raise AttributeError
    end.

(** Lines 53 to 59: the course directory is made and announced. *)
Definition enter_course (base_dir : pystr) (course : json) : M pystr :=
  course_title ← lift (course_title_of course);
  let course_dir := path_join base_dir course_title in
  os_makedirs course_dir;;
  print (MsgProcessingCourse course_title);;
  mret course_dir.

(** Lines 53 to 77: the body of the outer loop. *)
Definition process_course (E : environment) (base_dir : pystr) (course : json) : M unit :=
  course_dir ← enter_course base_dir course;
  materials ← lift (course_materials course);
  for_each materials (process_material E course course_dir).

(** Line 49: [json.loads(json_data)] *)
Definition parse (E : environment) (json_data : pystr) : M json :=
  match json_loads E json_data with
  | Some data => mret data
  | None => raise JSONDecodeError
  end.

Definition main (E : environment) (json_data base_dir : pystr) : M unit :=
  os_makedirs base_dir;;
  data ← parse E json_data;
  courses ← lift (catalog_courses data);
  for_each courses (process_course E base_dir);;
  print MsgCompleted.

(** ** The script *)

(** The parsed command line. *)
Record arguments : Type := {
  json_file : option pystr;
  output_dir : pystr;
  json_string : option pystr
}.

Definition default_output_dir : pystr := lit "downloads".

(** A command-line value that is given and not empty. *)
Definition given (a : option pystr) : option pystr :=
  match a with
  | Some [] => None
  | other => other
  end.

(** The process ends with [sys.exit(code)], or goes on with a value. *)
Inductive step (A : Type) : Type :=
| Exit (code : N)
| Continue (a : A).
Arguments Exit {A} code.
Arguments Continue {A} a.

(** Lines 90 to 108: where the document text comes from. *)
Definition acquire (E : environment) (args : arguments) : world → step pystr * world := λ w,
  match given (json_string args) with
  | Some text => (Continue text, w)
  | None =>
      match given (json_file args) with
      | Some path =>
          match read_text E path w with
          | (Ok text, w') => (Continue text, w')
          | (Raise FileNotFoundError, w') =>
              (Exit 1, emit (EvPrint (MsgFileNotFound path)) w')
          | (Raise e, w') => (Exit 1, emit (EvPrint (MsgErrorReading e)) w')
          end
      | None => (Exit 1, emit (EvPrint MsgHelp) (emit (EvPrint MsgNoInput) w))
      end
  end.

(** Lines 110 to 122: validate, run the batch, report. Returns the exit
    status of the process. *)
Definition run (E : environment) (json_data base_dir : pystr) : world → N * world := λ w,
  match (parse E json_data;; main E json_data base_dir) w with
  | (Ok _, w') => (0, w')
  | (Raise JSONDecodeError, w') => (1, emit (EvPrint MsgInvalidJson) w')
  | (Raise e, w') => (1, emit (EvPrint (MsgErrorOccurred e)) w')
  end.

Definition script (E : environment) (args : arguments) : world → N * world := λ w,
  match acquire E args w with
  | (Exit code, w') => (code, w')
  | (Continue json_data, w') => run E json_data (output_dir args) w'
  end.

(** ** Notions used to state the properties *)







(** The addresses requested so far, in the order of the requests. *)
Definition requested (history : list event) : list pystr :=
  omap (λ ev, match ev with EvGet url => Some url | _ => None end) history.






(** Every run of the computation relates the world before to the world
    after. *)
Definition changes {A} (R : relation world) (m : M A) : Prop :=
  ∀ w r w', m w = (r, w') → R w w'.

(** Nothing is requested, and no file other than [p] changes. *)
Definition quiet (p : pystr) : relation world := λ w w',
  (∀ q, q ≠ p → files w' !! q = files w !! q)
  ∧ requested (trace w') = requested (trace w).


(** Lines 63 to 67 for one material: the file name, the address and the
    placeholder test, in the order the source evaluates them. *)
Definition material_check (course material : json) : result bool :=
  file_name_of material ≫= λ _,
  file_link_of material ≫= is_placeholder course.

(** Nothing is removed: every directory and every file is still there, and
    the trace only grows. *)
Definition grows : relation world := λ w w',
  dirs w ⊆ dirs w'
  ∧ dom (files w) ⊆ dom (files w')
  ∧ trace w `prefix_of` trace w'.

(** No file changes whose path does not start with [base_dir]. *)
Definition outside (base_dir : pystr) : relation world := λ w w',
  ∀ p, ¬ base_dir `prefix_of` p → files w' !! p = files w !! p.

(** Every new directory is one of [allowed]. *)
Definition dirs_within (allowed : gset pystr) : relation world := λ w w',
  dirs w' ⊆ dirs w ∪ allowed.

(** Only console lines are added to the trace. *)
Definition printing : relation world := λ w w',
  ∃ lines, trace w' = trace w ++ (EvPrint <$> lines).

(** The requests and the pauses of a trace, without the console lines. *)
Definition is_print (ev : event) : bool :=
  match ev with
  | EvPrint _ => true
  | _ => false
  end.

Definition pace (history : list event) : list event :=
  filter (λ ev, is_print ev = false) history.

(** Since [w], every request has been followed by a pause, with nothing
    between them but console lines. *)
Definition paced : relation world := λ w w',
  ∃ urls, pace (trace w') = pace (trace w) ++ (urls ≫= λ url, [EvGet url; EvSleep]).

(** Since [w], completion has not been reported. *)
Definition unfinished : relation world := λ w w',
  ∃ evs, trace w' = trace w ++ evs ∧ EvPrint MsgCompleted ∉ evs.

(** ** Proof tools *)

Arguments lit : simpl never.
Arguments catalog_courses : simpl never.
Arguments course_title_of : simpl never.
Arguments course_materials : simpl never.
Arguments file_name_of : simpl never.
Arguments file_link_of : simpl never.
Arguments is_placeholder : simpl never.
Arguments download_file : simpl never.
Arguments os_makedirs : simpl never.
Arguments path_join : simpl never.

Ltac run :=
  unfold mbind, mret, M_bind, M_ret, result_bind, result_ret, lift, raise,
    print, sleep; simpl.

(** ** A concrete run-time, for the examples

    The example of the specification: one course, [Algo 101], identifier
    [u1], with a material to fetch and a folder placeholder. *)
Module Sample.

Definition str (s : string) : json := JStr (lit s).

Definition material (fileName link : string) : json :=
  JObj [(lit "fileName", str fileName); (lit "link", str link)].

Definition course (title uuid : string) (materials : list json) : json :=
  JObj [(lit "title", str title); (lit "uuid", str uuid);
        (lit "materials", JArr materials)].

Definition catalog (courses : list json) : json :=
  JObj [(lit "data", JArr courses)].

Definition algo : json :=
  course "Algo 101" "u1"
    [material "notes:1.pdf" "http://x/notes1.pdf"; material "f" "http://x/u1"].

(** A course with an empty title whose material is called [f], followed by
    a course called [f]. *)
Definition clash : list json :=
  [course "" "u0" [material "f" "http://x/notes1.pdf"]; course "f" "u2" []].

(** JSON text of a value (strings without escapes, which the examples do
    not need). *)
Definition commas (parts : list pystr) : pystr :=
  match parts with
  | [] => []
  | first :: more => first ++ concat ((λ part, lit "," ++ part) <$> more)
  end.

Definition quoted (s : pystr) : pystr := [Chr.dquote] ++ s ++ [Chr.dquote].

Fixpoint render (v : json) : pystr :=
  match v with
  | JNull => lit "null"
  | JBool b => if b then lit "true" else lit "false"
  | JNum zero => if zero then lit "0" else lit "1"
  | JStr s => quoted s
  | JArr items => lit "[" ++ commas (render <$> items) ++ lit "]"
  | JObj members =>
      lit "{" ++ commas ((λ '(k, v), quoted k ++ lit ":" ++ render v) <$> members)
      ++ lit "}"
  end.

(** A course whose first address answers 404, followed by a second
    course. *)
Definition course_a : json :=
  course "A" "ua"
    [material "gone" "http://x/gone"; material "notes.pdf" "http://x/notes1.pdf"].

Definition course_b : json :=
  course "B" "ub" [material "part" "http://x/broken"].

Definition patchy : list json := [course_a; course_b].

(** A material whose declared file name is empty, one without a declared
    file name, and a course without identifier. *)
Definition nameless : json :=
  JObj [(lit "fileName", str ""); (lit "link", str "http://x/notes1.pdf")].

Definition undeclared : json :=
  JObj [(lit "link", str "http://x/notes1.pdf")].

Definition anonymous : json :=
  JObj [(lit "title", str "Anon");
        (lit "materials", JArr [material "a" "http://x/notes1.pdf"; undeclared])].

(** A course whose only material has an empty declared file name. *)
Definition blank : list json := [course "Algo 101" "u1" [nameless]].

Definition documents : list json :=
  [catalog [algo]; catalog clash; catalog patchy; catalog blank; JObj []].

(** The decoder knows the texts of [documents]. *)
Definition loads (text : pystr) : option json :=
  list_find (λ v, render v = text) documents ≫= λ found, Some found.2.

Definition notes : list bytes := [[x25; x50; x44; x46]; [x2d; x31]].

(** One address answers 200 with a body of two chunks, one answers 200 and
    breaks after the first chunk, one answers 404; no other server is
    reachable. *)
Definition get (history : list event) (url : pystr) : http_result :=
  if decide (url = lit "http://x/notes1.pdf") then Response 200 notes true
  else if decide (url = lit "http://x/broken") then Response 200 (take 1 notes) false
  else if decide (url = lit "http://x/gone") then Response 404 [] true
  else Unreachable.

Definition env : environment :=
  {| json_loads := loads; requests_get := get; decode_text := λ _, None |}.

Definition empty : world := {| dirs := ∅; files := ∅; trace := [] |}.

Definition downloads : pystr := default_output_dir.

(** The command line [--json-string '{not json'] *)
Definition bad_arguments : arguments :=
  {| json_file := None; output_dir := downloads;
     json_string := Some (lit "{not json") |}.


(** A course whose two materials share a file name and an address, a
    material whose address is a number, a course whose title is a number,
    and a course with such a material. *)
Definition revised : json :=
  course "R" "ur" [material "same" "http://x/latest"; material "same" "http://x/latest"].

Definition numbered : json :=
  JObj [(lit "fileName", str "n"); (lit "link", JNum false)].

Definition untitled : json := JObj [(lit "title", JNum false)].

Definition odd : json :=
  course "O" "uo" [material "skip" "http://x/uo"; numbered; material "late" "http://x/gone"].

Definition more_documents : list json :=
  documents ++ [catalog [revised]; catalog [course_b; untitled; algo];
                catalog [odd; algo]; JArr []].

Definition loads_more (text : pystr) : option json :=
  list_find (λ v, render v = text) more_documents ≫= λ found, Some found.2.

(** One more address, whose body changes once it has been requested. *)
Definition get_latest (history : list event) (url : pystr) : http_result :=
  if decide (url = lit "http://x/latest") then
    if bool_decide (url ∈ requested history) then Response 200 notes true
    else Response 200 (take 1 notes) true
  else get history url.

Definition env_more : environment :=
  {| json_loads := loads_more; requests_get := get_latest; decode_text := λ _, None |}.

(** The command line [--json-string '' --json-file missing.json] *)
Definition missing_arguments : arguments :=
  {| json_file := Some (lit "missing.json"); output_dir := downloads;
     json_string := Some [] |}.

(** The world when [main] reaches the second course of the catalog
    [course_b; untitled; algo], and when it reaches the second material of
    the catalog [odd; algo]. *)
Definition untitled_reached : world :=
  ((os_makedirs downloads;;
    for_each [course_b] (process_course env_more downloads)) empty).2.

Definition numbered_reached : world :=
  ((os_makedirs downloads;;
    for_each [] (process_course env_more downloads);;
    enter_course downloads odd;;
    for_each [material "skip" "http://x/uo"]
      (process_material env_more odd (path_join downloads (lit "O")))) empty).2.

End Sample.

(** * Properties *)

(** *** Properties of the sanitizer *)

Lemma foldl_replace_char (chars : list N) (u c : N) :
  u ∉ chars →
  foldl (λ x char, if decide (x = char) then u else x) c chars
  = if bool_decide (c ∈ chars) then u else c.
Proof.
  intros Hu. revert c. induction chars as [|ch chars IH]; intros c; [done|].
  apply not_elem_of_cons in Hu as [Hne Hu]. simpl. rewrite (IH Hu).
  destruct (decide (c = ch)) as [->|Hc].
  - rewrite (bool_decide_eq_false_2 (u ∈ chars)) by done.
    by rewrite bool_decide_eq_true_2 by apply list_elem_of_here.
  - rewrite (bool_decide_ext (c ∈ ch :: chars) (c ∈ chars)); [done|].
    rewrite elem_of_cons. tauto.
Qed.

Lemma disallowed_set_invalid_chars : disallowed_set = invalid_chars.
Proof. reflexivity. Qed.

Lemma underscore_allowed : Chr.underscore ∉ invalid_chars.
Proof.
  apply (bool_decide_eq_false_1 (Chr.underscore ∈ invalid_chars)).
  vm_compute. reflexivity.
Qed.

Lemma sanitize_filename_char c :
  foldl (λ x char, if decide (x = char) then Chr.underscore else x)
        c invalid_chars
  = sanitize_char c.
Proof.
  unfold sanitize_char, disallowed. rewrite disallowed_set_invalid_chars.
  apply foldl_replace_char, underscore_allowed.
Qed.

Lemma foldl_str_replace (chars : list N) (u : N) (s : pystr) :
  foldl (λ filename char, str_replace char u filename) s chars
  = (λ c, foldl (λ x char, if decide (x = char) then u else x) c chars) <$> s.
Proof.
  revert s. induction chars as [|ch chars IH]; intros s; simpl.
  - by rewrite list_fmap_id.
  - rewrite IH. unfold str_replace. by rewrite <- list_fmap_compose.
Qed.

Lemma sanitize_filename_fmap s :
  sanitize_filename s = sanitize_spec s.
Proof.
  unfold sanitize_filename, sanitize_spec. rewrite foldl_str_replace.
  apply list_fmap_ext. intros _ c _. apply sanitize_filename_char.
Qed.

Lemma sanitize_char_clean c : disallowed (sanitize_char c) = false.
Proof.
  unfold sanitize_char. destruct (disallowed c) eqn:Hc; [|done].
  apply bool_decide_eq_false_2. rewrite disallowed_set_invalid_chars.
  apply underscore_allowed.
Qed.

Lemma sanitize_char_idem c : sanitize_char (sanitize_char c) = sanitize_char c.
Proof.
  unfold sanitize_char at 1. by rewrite sanitize_char_clean.
Qed.

Lemma sanitize_filename_clean s :
  Forall (λ c, disallowed c = false) (sanitize_filename s).
Proof.
  rewrite sanitize_filename_fmap. unfold sanitize_spec.
  rewrite Forall_fmap. apply Forall_forall. intros c _.
  apply sanitize_char_clean.
Qed.

Lemma sanitize_filename_length s :
  length (sanitize_filename s) = length s.
Proof. rewrite sanitize_filename_fmap. apply length_fmap. Qed.



(** C3. For every string [s], [sanitize_filename s] is [s] with each
    character of the disallowed set replaced by an underscore and every
    other character, whatever its code point (white space and characters
    beyond ASCII included), left as it is and where it is; the result has
    the length of [s], the empty string is returned unchanged, and the
    result holds no character of the disallowed set. *)
Theorem sanitize_filename_replaces (s : pystr) :
  sanitize_filename s = sanitize_spec s
  ∧ (∀ (i : nat) (c : N), s !! i = Some c →
       sanitize_filename s !! i
       = Some (if bool_decide (c ∈ disallowed_set) then Chr.underscore else c))
  ∧ length (sanitize_filename s) = length s
  ∧ sanitize_filename [] = []
  ∧ Forall (λ c, c ∉ disallowed_set) (sanitize_filename s).
Proof.
  split_and!.
  - apply sanitize_filename_fmap.
  - intros i c Hi. rewrite sanitize_filename_fmap. unfold sanitize_spec.
    rewrite list_lookup_fmap, Hi. done.
  - apply sanitize_filename_length.
  - done.
  - eapply Forall_impl; [apply sanitize_filename_clean|].
    intros c Hc. by apply bool_decide_eq_false_1 in Hc.
Qed.

(** C4. Sanitization is idempotent. *)
Theorem sanitize_filename_idempotent (s : pystr) :
  sanitize_filename (sanitize_filename s) = sanitize_filename s.
Proof.
  rewrite !sanitize_filename_fmap. unfold sanitize_spec.
  rewrite <- list_fmap_compose. apply list_fmap_ext.
  intros _ c _. apply sanitize_char_idem.
Qed.

(** ** Running computations *)

Lemma bind_ok {A B} (m : M A) (f : A → M B) w a w' :
  m w = (Ok a, w') → (m ≫= f) w = f a w'.
Proof. intros H. unfold mbind, M_bind. by rewrite H. Qed.

Lemma bind_raise {A B} (m : M A) (f : A → M B) w e w' :
  m w = (Raise e, w') → (m ≫= f) w = (Raise e, w').
Proof. intros H. unfold mbind, M_bind. by rewrite H. Qed.

Lemma bind_assoc {A B C} (m : M A) (f : A → M B) (g : B → M C) w :
  ((m ≫= f) ≫= g) w = (m ≫= λ a, f a ≫= g) w.
Proof. unfold mbind, M_bind. by destruct (m w) as [[a|e] w']. Qed.

Lemma bind_ok_inv {A B} (m : M A) (f : A → M B) w b w' :
  (m ≫= f) w = (Ok b, w') → ∃ a w1, m w = (Ok a, w1) ∧ f a w1 = (Ok b, w').
Proof.
  unfold mbind, M_bind. destruct (m w) as [[a|e] w1]; [eauto|done].
Qed.

Lemma for_each_app {A} (xs ys : list A) (body : A → M unit) w :
  for_each (xs ++ ys) body w = (for_each xs body;; for_each ys body) w.
Proof.
  revert w. induction xs as [|x xs IH]; intros w; simpl.
  - unfold mbind, M_bind. simpl. by destruct (for_each ys body w).
  - rewrite bind_assoc. unfold mbind, M_bind in *.
    destruct (body x w) as [[[]|e] w1]; [apply IH|done].
Qed.

(** ** Missing and empty fields *)

Lemma py_get_missing members key fallback :
  dict_lookup key members = None →
  py_get (JObj members) key fallback = Ok fallback.
Proof. intros H. unfold py_get. by rewrite H. Qed.


Lemma file_name_of_missing members :
  dict_lookup (lit "fileName") members = None →
  file_name_of (JObj members) = Ok (lit "unknown_file").
Proof.
  intros H. unfold file_name_of. rewrite (py_get_missing _ _ _ H).
  vm_compute. reflexivity.
Qed.


Lemma course_title_of_missing members :
  dict_lookup (lit "title") members = None →
  course_title_of (JObj members) = Ok (lit "Unknown").
Proof.
  intros H. unfold course_title_of. rewrite (py_get_missing _ _ _ H).
  vm_compute. reflexivity.
Qed.

Lemma is_placeholder_suffix course url uuid :
  py_get course (lit "uuid") (JStr []) = Ok (JStr uuid) →
  is_placeholder course (JStr url)
  = Ok (bool_decide (url = []) || endswith url uuid).
Proof.
  intros H. unfold is_placeholder. simpl.
  destruct url as [|c url]; [done|]. simpl.
  unfold mbind, result_bind. by rewrite H.
Qed.

Lemma endswith_nil s : endswith s [] = true.
Proof. apply bool_decide_eq_true_2, suffix_nil. Qed.

(** ** Paths *)










Section Properties.
Context (E : environment).

Lemma process_material_skip course course_dir material name link w :
  file_name_of material = Ok name →
  file_link_of material = Ok link →
  is_placeholder course link = Ok true →
  process_material E course course_dir material w = (Ok tt, w).
Proof.
  intros Hn Hl Hp. unfold process_material. rewrite Hn, Hl. run.
  by rewrite Hp.
Qed.


(** C5. Missing optional fields do not fail and degrade to defaults: an
    object without [data] has no courses, and [main] then only makes the
    base directory and reports completion; a course without [title] is
    called [Unknown]; a course without [materials] has none, and a course
    with neither is processed by making the directory [Unknown]; a material
    without [fileName] is called [unknown_file]; a material without [link]
    has the empty address, and a material with neither is skipped. *)
Theorem missing_fields_default :
  (∀ members, dict_lookup (lit "data") members = None →
     catalog_courses (JObj members) = Ok [])
  ∧ (∀ members, dict_lookup (lit "title") members = None →
     course_title_of (JObj members) = Ok (lit "Unknown"))
  ∧ (∀ members, dict_lookup (lit "materials") members = None →
     course_materials (JObj members) = Ok [])
  ∧ (∀ members, dict_lookup (lit "fileName") members = None →
     file_name_of (JObj members) = Ok (lit "unknown_file"))
  ∧ (∀ members, dict_lookup (lit "link") members = None →
     file_link_of (JObj members) = Ok (JStr []))
  ∧ (∀ json_data members base_dir w,
     json_loads E json_data = Some (JObj members) →
     dict_lookup (lit "data") members = None →
     main E json_data base_dir w = (os_makedirs base_dir;; print MsgCompleted) w)
  ∧ (∀ members base_dir w,
     dict_lookup (lit "title") members = None →
     dict_lookup (lit "materials") members = None →
     process_course E base_dir (JObj members) w
     = (os_makedirs (path_join base_dir (lit "Unknown"));;
        print (MsgProcessingCourse (lit "Unknown"))) w)
  ∧ (∀ course course_dir members w,
     dict_lookup (lit "fileName") members = None →
     dict_lookup (lit "link") members = None →
     process_material E course course_dir (JObj members) w = (Ok tt, w)).
Proof.
  split_and!.
  - intros members H. unfold catalog_courses.
    by rewrite (py_get_missing _ _ _ H).
  - apply course_title_of_missing.
  - intros members H. unfold course_materials.
    by rewrite (py_get_missing _ _ _ H).
  - apply file_name_of_missing.
  - intros members H. unfold file_link_of. by rewrite (py_get_missing _ _ _ H).
  - intros json_data members base_dir w Hloads H. unfold main, parse.
    rewrite Hloads. run. unfold catalog_courses.
    rewrite (py_get_missing _ _ _ H). run.
    by destruct (os_makedirs base_dir w) as [[[]|e] w1].
  - intros members base_dir w Ht Hm. unfold process_course, enter_course.
    rewrite (course_title_of_missing _ Ht). unfold course_materials.
    rewrite (py_get_missing _ _ _ Hm). run.
    by destruct (os_makedirs _ w) as [[[]|e] w1].
  - intros course course_dir members w Hn Hl.
    eapply process_material_skip.
    + by apply file_name_of_missing.
    + unfold file_link_of. by rewrite (py_get_missing _ _ _ Hl).
    + done.
Qed.

(** C2. A material whose address is empty, or ends with the identifier of
    its course, is skipped: [process_material] returns normally and leaves
    the world as it was, so that no request is issued and no file is
    created. (The declared file name is a string or is missing: line 63
    sanitizes it before line 67 tests the address.) *)
Theorem placeholder_is_skipped course course_dir material name url w :
  file_name_of material = Ok name →
  file_link_of material = Ok (JStr url) →
  url = [] ∨ (∃ uuid, py_get course (lit "uuid") (JStr []) = Ok (JStr uuid)
                      ∧ endswith url uuid = true) →
  process_material E course course_dir material w = (Ok tt, w).
Proof.
  intros Hn Hl Hskip. eapply process_material_skip; [done..|].
  destruct Hskip as [->|(uuid & Hu & Hends)]; [done|].
  rewrite (is_placeholder_suffix _ _ _ Hu), Hends. by rewrite orb_true_r.
Qed.

(** C10. In a course record without [uuid] every material is skipped,
    whatever its address: the loop over its materials returns normally and
    leaves the world as it was. *)
Theorem course_without_uuid_skips_all members course_dir materials w :
  dict_lookup (lit "uuid") members = None →
  Forall (λ material, ∃ name url, file_name_of material = Ok name
                                  ∧ file_link_of material = Ok (JStr url))
         materials →
  for_each materials (process_material E (JObj members) course_dir) w = (Ok tt, w).
Proof.
  intros Hu Hall. induction Hall as [|material materials Hm _ IH]; [done|].
  destruct Hm as (name & url & Hn & Hl). simpl.
  erewrite bind_ok; [apply IH|].
  eapply process_material_skip; [done..|].
  rewrite (is_placeholder_suffix _ _ []) by by apply py_get_missing.
  by rewrite endswith_nil, orb_true_r.
Qed.

(** ** What [download_file] does *)












(** ** What [main] does *)


Lemma enter_course_run base_dir course title w :
  course_title_of course = Ok title →
  enter_course base_dir course w
  = (os_makedirs (path_join base_dir title);;
     print (MsgProcessingCourse title);;
     mret (path_join base_dir title)) w.
Proof. intros Ht. unfold enter_course. by rewrite Ht. Qed.

Lemma enter_course_ok base_dir course title course_dir w w' :
  course_title_of course = Ok title →
  enter_course base_dir course w = (Ok course_dir, w') →
  course_dir = path_join base_dir title ∧ course_dir ∈ dirs w'.
Proof.
  intros Ht. rewrite (enter_course_run _ _ _ _ Ht). unfold os_makedirs. run.
  repeat case_bool_decide; try done.
  intros [= <- <-]. simpl. split; [done|set_solver].
Qed.





(** ** What the script does *)

Lemma read_text_world p w r w' : read_text E p w = (r, w') → w' = w.
Proof.
  unfold read_text. repeat case_match; by intros [= _ <-].
Qed.

Lemma acquire_continue args w json_data w' :
  acquire E args w = (Continue json_data, w') → w' = w.
Proof.
  unfold acquire. destruct (given (json_string args)); [by intros [= _ <-]|].
  destruct (given (json_file args)) as [path|]; [|done].
  destruct (read_text E path w) as [[text|e] w1] eqn:Hread.
  - apply read_text_world in Hread as ->. by intros [= _ <-].
  - by destruct e.
Qed.

(** C8. A document text that is not well-formed ends the script with exit
    status 1 before anything else happens: the file system is as it was
    (no directory is made), and the only thing added to the trace is the
    line that reports the invalid document, so that no request is issued. *)
Theorem malformed_document_exits_early args w json_data w1 :
  acquire E args w = (Continue json_data, w1) →
  json_loads E json_data = None →
  ∃ w', script E args w = (1, w')
        ∧ dirs w' = dirs w
        ∧ files w' = files w
        ∧ trace w' = trace w ++ [EvPrint MsgInvalidJson].
Proof.
  intros Hacq Hloads. pose proof (acquire_continue _ _ _ _ Hacq) as ->.
  exists (emit (EvPrint MsgInvalidJson) w).
  split; [|done]. unfold script. rewrite Hacq. unfold run, parse.
  rewrite Hloads. reflexivity.
Qed.




(** ** Directories *)

















(** ** The batch as a whole *)

Lemma changes_bind {A B} (R : relation world) `{!Transitive R}
    (m : M A) (f : A → M B) :
  changes R m → (∀ a, changes R (f a)) → changes R (m ≫= f).
Proof.
  intros Hm Hf w r w'. unfold mbind, M_bind.
  destruct (m w) as [[a|e] w1] eqn:H1.
  - intros H2. etrans; [by eapply Hm|by eapply Hf].
  - intros [= _ <-]. by eapply Hm.
Qed.

Lemma changes_pure {A} (R : relation world) (m : M A) :
  (∀ w, R w (m w).2) → changes R m.
Proof. intros H w r w' Hm. specialize (H w). by rewrite Hm in H. Qed.

Lemma changes_for_each {A} (R : relation world) `{!PreOrder R}
    (xs : list A) (body : A → M unit) :
  (∀ x, changes R (body x)) → changes R (for_each xs body).
Proof.
  intros Hbody. induction xs as [|x xs IH]; simpl.
  - by apply changes_pure.
  - by apply changes_bind; [apply _|..].
Qed.

#[local] Instance quiet_preorder p : PreOrder (quiet p).
Proof.
  split.
  - by intros w.
  - intros w1 w2 w3 [Hf1 Hq1] [Hf2 Hq2]. split; [|congruence].
    intros q Hq. by rewrite Hf2, Hf1.
Qed.

Lemma requested_emit ev w :
  requested (trace (emit ev w))
  = requested (trace w) ++ match ev with EvGet url => [url] | _ => [] end.
Proof.
  unfold requested. simpl. rewrite omap_app. by destruct ev.
Qed.
















(** The exit status of the script, once the document text is acquired: 0
    when the text is well-formed and [main] returns, 1 otherwise. Failed
    fetches do not count: [download_file] keeps them from [main]. *)
Theorem exit_status args w json_data w1 :
  acquire E args w = (Continue json_data, w1) →
  (script E args w).1
  = match json_loads E json_data with
    | None => 1
    | Some _ =>
        match (main E json_data (output_dir args) w).1 with
        | Ok _ => 0
        | Raise _ => 1
        end
    end.
Proof.
  intros Hacq. pose proof (acquire_continue _ _ _ _ Hacq) as ->.
  unfold script. rewrite Hacq. unfold run, parse.
  destruct (json_loads E json_data) as [data|] eqn:Hloads; [|done].
  erewrite bind_ok by reflexivity.
  by destruct (main E json_data (output_dir args) w) as [[[]|[]] w'].
Qed.

(** ** More on [sanitize_filename] *)

(** A name is left as it is exactly when it holds no disallowed
    character. *)
Theorem sanitize_filename_fixed_points (s : pystr) :
  sanitize_filename s = s ↔ Forall (λ c, c ∉ disallowed_set) s.
Proof.
  split.
  - intros Hs. rewrite <- Hs.
    eapply Forall_impl; [apply sanitize_filename_clean|].
    intros c Hc. by apply bool_decide_eq_false_1 in Hc.
  - intros Hall. rewrite sanitize_filename_fmap. unfold sanitize_spec.
    induction Hall as [|c s Hc _ IH]; [done|].
    rewrite fmap_cons, IH. f_equal. unfold sanitize_char, disallowed.
    by rewrite bool_decide_eq_false_2.
Qed.

(** ** More on [download_file] *)






(** ** Values of other types *)

(** An address that is not a string: when it is false ([null], [false],
    zero, an empty list or object) the material is skipped like one with an
    empty address; when it is true, line 67 raises [AttributeError], which
    nothing in [main] catches. *)
Theorem link_that_is_no_string course course_dir material name link w :
  file_name_of material = Ok name →
  file_link_of material = Ok link →
  (∀ url, link ≠ JStr url) →
  process_material E course course_dir material w
  = (if py_truthy link then Raise AttributeError else Ok tt, w).
Proof.
  intros Hn Hl Hstr. unfold process_material. rewrite Hn, Hl. run.
  unfold is_placeholder.
  destruct link as [|[]|[]| |[]|[]]; simpl; try done.
  by destruct (Hstr s).
Qed.

(** [main] makes the base directory before it reads the document: on a
    text that is not well-formed it raises [JSONDecodeError] after that,
    and on a document whose courses cannot be listed (the document is not
    an object: [AttributeError]; its [data] is [null], a truth value or a
    number: [TypeError]) it raises that exception after that. *)
Theorem main_fails_after_base_dir :
  (∀ json_data base_dir w,
     json_loads E json_data = None →
     main E json_data base_dir w = (os_makedirs base_dir;; raise JSONDecodeError) w)
  ∧ (∀ json_data data e base_dir w,
     json_loads E json_data = Some data →
     catalog_courses data = Raise e →
     main E json_data base_dir w = (os_makedirs base_dir;; raise e) w).
Proof.
  split.
  - intros json_data base_dir w Hloads. unfold main, parse. rewrite Hloads.
    run. by destruct (os_makedirs base_dir w) as [[[]|e] w1].
  - intros json_data data e base_dir w Hloads Hcat. unfold main, parse.
    rewrite Hloads. run.
    destruct (os_makedirs base_dir w) as [[[]|e'] w1]; [|done].
    by rewrite Hcat.
Qed.

(** ** More on the script *)

(** When no document text can be acquired (neither option is given with a
    value that is not empty, or the document file is missing, is a
    directory or does not decode), the script exits with status 1, the file
    system is as it was, and nothing is requested. *)
Theorem input_not_acquired args w :
  given (json_string args) = None →
  given (json_file args) = None
  ∨ (∃ path, given (json_file args) = Some path
             ∧ (files w !! path = None
                ∨ ∃ content, files w !! path = Some content
                             ∧ decode_text E content = None)) →
  ∃ w', script E args w = (1, w')
        ∧ dirs w' = dirs w
        ∧ files w' = files w
        ∧ requested (trace w') = requested (trace w).
Proof.
  intros Hstring Hfile. unfold script, acquire. rewrite Hstring.
  destruct Hfile as [->|(path & -> & Hpath)].
  { eexists. split; [done|]. split_and!; [done..|].
    by rewrite !requested_emit, !app_nil_r. }
  unfold read_text.
  destruct Hpath as [->|(content & -> & ->)].
  - case_bool_decide; (eexists; split; [done|]; split_and!; [done..|]);
      by rewrite requested_emit, app_nil_r.
  - eexists. split; [done|]. split_and!; [done..|].
    by rewrite requested_emit, app_nil_r.
Qed.

(** ** What a run leaves alone *)

Lemma changes_bind_strong {A B} (R : relation world) `{!Transitive R}
    (m : M A) (f : A → M B) :
  changes R m →
  (∀ a, (∃ w w1, m w = (Ok a, w1)) → changes R (f a)) →
  changes R (m ≫= f).
Proof.
  intros Hm Hf w r w'. unfold mbind, M_bind.
  destruct (m w) as [[a|e] w1] eqn:H1.
  - intros H2. etrans; [by eapply Hm|]. eapply Hf; [|done]. eauto.
  - intros [= _ <-]. by eapply Hm.
Qed.

Lemma changes_try {A} (R : relation world) `{!Transitive R}
    (m : M A) (handler : exn → M A) :
  changes R m → (∀ e, changes R (handler e)) → changes R (try_except m handler).
Proof.
  intros Hm Hh w r w'. unfold try_except.
  destruct (m w) as [[a|e] w1] eqn:H1.
  - intros [= _ <-]. by eapply Hm.
  - intros H2. etrans; [by eapply Hm|by eapply Hh].
Qed.

Lemma changes_for_each_in {A} (R : relation world) `{!PreOrder R}
    (xs : list A) (body : A → M unit) :
  (∀ x, x ∈ xs → changes R (body x)) → changes R (for_each xs body).
Proof.
  induction xs as [|x xs IH]; intros Hbody; simpl.
  - by apply changes_pure.
  - apply changes_bind; [apply _|apply Hbody; set_solver|].
    intros _. apply IH. intros y Hy. apply Hbody. set_solver.
Qed.

Lemma changes_lift {A} (R : relation world) `{!Reflexive R} (r : result A) :
  changes R (lift r).
Proof. by apply changes_pure. Qed.

Section Frames.
Context (R : relation world) `{!PreOrder R} (okdir okfile : pystr → Prop).
Hypothesis R_print : ∀ line w, line ≠ MsgCompleted → R w (emit (EvPrint line) w).
Hypothesis R_completed : ∀ w, R w (emit (EvPrint MsgCompleted) w).
Hypothesis R_get : ∀ url w, R w (emit (EvGet url) w).
Hypothesis R_sleep : ∀ w, R w (emit EvSleep w).
Hypothesis R_mkdir : ∀ p w, okdir p → R w (with_dirs ({[p]} ∪ dirs w) w).
Hypothesis R_open : ∀ p w, okfile p → R w (with_files (<[p := []]> (files w)) w).
Hypothesis R_write : ∀ p chunk w,
  okfile p → R w (with_files (alter (λ old, old ++ chunk) p (files w)) w).

Lemma frame_print line : line ≠ MsgCompleted → changes R (print line).
Proof. intros Hline. apply changes_pure. intros w. by apply R_print. Qed.

Lemma frame_makedirs p : okdir p → changes R (os_makedirs p).
Proof.
  intros Hp. apply changes_pure. intros w. unfold os_makedirs.
  repeat case_bool_decide; simpl; [done..|]. by apply R_mkdir.
Qed.

Lemma frame_after_request destination_path status chunks complete :
  okdir (dirname destination_path) → okfile destination_path →
  changes R
    (raise_for_status status;;
     os_makedirs (dirname destination_path);;
     open_wb destination_path;;
     for_each chunks (file_write destination_path);;
     stream_end complete;;
     print (MsgDownloaded destination_path);;
     mret true).
Proof.
  intros Hdir Hfile.
  apply changes_bind; [apply _|..].
  { apply changes_pure. intros w. unfold raise_for_status.
    by case_bool_decide. }
  intros _. apply changes_bind; [apply _|by apply frame_makedirs|].
  intros _. apply changes_bind; [apply _|..].
  { apply changes_pure. intros w. unfold open_wb.
    repeat case_match; simpl; try done. by apply R_open. }
  intros _. apply changes_bind; [apply _|..].
  { apply changes_for_each; [apply _|]. intros chunk. apply changes_pure.
    intros w. by apply R_write. }
  intros _. apply changes_bind; [apply _|..].
  { apply changes_pure. intros w. by destruct complete. }
  intros _. apply changes_bind; [apply _|by apply frame_print|].
  intros _. by apply changes_pure.
Qed.

Lemma frame_download url destination_path :
  okdir (dirname destination_path) → okfile destination_path →
  changes R (download_file E url destination_path).
Proof.
  intros Hdir Hfile. apply changes_try; [apply _|..].
  - unfold download_attempt. apply changes_bind; [apply _|..].
    { apply changes_pure. intros w. unfold http_get.
      case_match; apply R_get. }
    intros [[status chunks] complete]. by apply frame_after_request.
  - intros e. apply changes_bind; [apply _|by apply frame_print|].
    intros _. by apply changes_pure.
Qed.

Lemma frame_material course course_dir material :
  (∀ name, file_name_of material = Ok name →
     okdir (dirname (path_join course_dir name))
     ∧ okfile (path_join course_dir name)) →
  changes R (process_material E course course_dir material).
Proof.
  intros Hok. unfold process_material.
  apply changes_bind_strong; [apply _|apply changes_lift; apply _|].
  intros name (w & w1 & [= Hname _]).
  apply changes_bind; [apply _|apply changes_lift; apply _|]. intros link.
  apply changes_bind; [apply _|apply changes_lift; apply _|]. intros [|].
  { by apply changes_pure. }
  destruct link; try by apply changes_pure.
  destruct (Hok name Hname) as [Hdir Hfile].
  apply changes_bind; [apply _|by apply frame_download|].
  intros _. apply changes_pure. intros w'. apply R_sleep.
Qed.

Lemma frame_course base_dir course :
  (∀ title, course_title_of course = Ok title →
     okdir (path_join base_dir title)
     ∧ ∀ material name, file_name_of material = Ok name →
         okdir (dirname (path_join (path_join base_dir title) name))
         ∧ okfile (path_join (path_join base_dir title) name)) →
  changes R (process_course E base_dir course).
Proof.
  intros Hok. unfold process_course, enter_course.
  apply changes_bind_strong; [apply _|..].
  { apply changes_bind_strong; [apply _|apply changes_lift; apply _|].
    intros title (w & w1 & [= Htitle _]).
    destruct (Hok title Htitle) as [Hdir _].
    apply changes_bind; [apply _|by apply frame_makedirs|]. intros _.
    apply changes_bind; [apply _|by apply frame_print|]. intros _.
    by apply changes_pure. }
  intros course_dir (w & w1 & Henter).
  apply bind_ok_inv in Henter as (title & w2 & [= Htitle _] & Henter).
  apply bind_ok_inv in Henter as ([] & w3 & _ & Henter).
  apply bind_ok_inv in Henter as ([] & w4 & _ & [= <- _]).
  destruct (Hok title Htitle) as [_ Hmaterials].
  apply changes_bind; [apply _|apply changes_lift; apply _|].
  intros materials. apply changes_for_each; [apply _|].
  intros material. apply frame_material. intros name. apply Hmaterials.
Qed.

Lemma frame_main json_data base_dir :
  okdir base_dir →
  (∀ data courses course title,
     json_loads E json_data = Some data →
     catalog_courses data = Ok courses →
     course ∈ courses →
     course_title_of course = Ok title →
     okdir (path_join base_dir title)
     ∧ ∀ material name, file_name_of material = Ok name →
         okdir (dirname (path_join (path_join base_dir title) name))
         ∧ okfile (path_join (path_join base_dir title) name)) →
  changes R (main E json_data base_dir).
Proof.
  intros Hbase Hok. unfold main.
  apply changes_bind; [apply _|by apply frame_makedirs|]. intros _.
  apply changes_bind_strong; [apply _|..].
  { apply changes_pure. intros w. unfold parse. by case_match. }
  intros data (w & w1 & Hparse).
  assert (json_loads E json_data = Some data) as Hloads.
  { unfold parse in Hparse. destruct (json_loads E json_data); [|done].
    by injection Hparse as -> _. }
  apply changes_bind_strong; [apply _|apply changes_lift; apply _|].
  intros courses (w2 & w3 & [= Hcat _]).
  apply changes_bind; [apply _|..].
  { apply changes_for_each_in; [apply _|]. intros course Hin.
    apply frame_course. intros title Htitle. by eapply Hok. }
  intros _. apply changes_pure. intros w4. apply R_completed.
Qed.

End Frames.

#[local] Instance grows_preorder : PreOrder grows.
Proof.
  split.
  - by intros w.
  - intros w1 w2 w3 (Hd1 & Hf1 & Ht1) (Hd2 & Hf2 & Ht2).
    split_and!; by etrans.
Qed.

Lemma grows_emit ev w : grows w (emit ev w).
Proof. split_and!; [done..|]. by apply prefix_app_r. Qed.

Lemma main_grows json_data base_dir : changes grows (main E json_data base_dir).
Proof.
  apply (frame_main grows (λ _, True) (λ _, True)); try done.
  - intros line w _. apply grows_emit.
  - intros w. apply grows_emit.
  - intros url w. apply grows_emit.
  - intros w. apply grows_emit.
  - intros p w _. split_and!; [set_solver|done..].
  - intros p w _. split_and!; [done| |done]. simpl.
    rewrite dom_insert_L. set_solver.
  - intros p chunk w _. split_and!; [done| |done]. simpl.
    by rewrite dom_alter_L.
Qed.

(** Whatever the command line, the document and the servers, the script
    never removes a directory or a file (it may replace the content of a
    file), and what it has requested and printed stays in the trace. *)
Theorem script_never_removes args w :
  dirs w ⊆ dirs (script E args w).2
  ∧ dom (files w) ⊆ dom (files (script E args w).2)
  ∧ trace w `prefix_of` trace (script E args w).2.
Proof.
  change (grows w (script E args w).2).
  unfold script, acquire.
  assert (∀ json_data w1, grows w1 (run E json_data (output_dir args) w1).2)
    as Hrun.
  { intros json_data w1. unfold run.
    destruct ((parse E json_data;; main E json_data (output_dir args)) w1)
      as [r w2] eqn:Hm.
    assert (grows w1 w2) as Hgrows.
    { revert Hm. apply changes_bind; [apply _|..].
      - apply changes_pure. intros w3. unfold parse. by case_match.
      - intros _. apply main_grows. }
    destruct r as [[]|[]]; simpl; try done;
      (etrans; [exact Hgrows|apply grows_emit]). }
  destruct (given (json_string args)) as [text|]; [apply Hrun|].
  destruct (given (json_file args)) as [path|]; cycle 1.
  { simpl. etrans; apply grows_emit. }
  destruct (read_text E path w) as [[text|e] w1] eqn:Hread;
    apply read_text_world in Hread as ->.
  - apply Hrun.
  - destruct e; apply grows_emit.
Qed.

#[local] Instance outside_preorder base_dir : PreOrder (outside base_dir).
Proof.
  split.
  - by intros w p.
  - intros w1 w2 w3 H1 H2 p Hp. by rewrite H2, H1.
Qed.




(** ** The directories of a completed batch *)




#[local] Instance dirs_within_preorder allowed : PreOrder (dirs_within allowed).
Proof.
  split.
  - intros w. unfold dirs_within. set_solver.
  - intros w1 w2 w3. unfold dirs_within. set_solver.
Qed.



(** ** Requests and pauses *)





#[local] Instance printing_preorder : PreOrder printing.
Proof.
  split.
  - intros w. exists []. simpl. by rewrite app_nil_r.
  - intros w1 w2 w3 [l1 H1] [l2 H2]. exists (l1 ++ l2).
    by rewrite H2, H1, fmap_app, (assoc_L (++)).
Qed.



#[local] Instance paced_preorder : PreOrder paced.
Proof.
  split.
  - intros w. exists []. simpl. by rewrite app_nil_r.
  - intros w1 w2 w3 [l1 H1] [l2 H2]. exists (l1 ++ l2).
    by rewrite H2, H1, bind_app, (assoc_L (++)).
Qed.





(** ** Entries that end the batch *)

Lemma for_each_raise {A} (xs ys : list A) (x : A) (body : A → M unit) w w1 e w2 :
  for_each xs body w = (Ok tt, w1) →
  body x w1 = (Raise e, w2) →
  for_each (xs ++ x :: ys) body w = (Raise e, w2).
Proof.
  intros Hxs Hx. rewrite for_each_app. erewrite bind_ok by done.
  simpl. by apply bind_raise.
Qed.

Lemma process_material_check course course_dir material e w :
  material_check course material = Raise e →
  process_material E course course_dir material w = (Raise e, w).
Proof.
  unfold material_check, process_material.
  destruct (file_name_of material) as [name|e1]; simpl; [|by intros [= <-]].
  destruct (file_link_of material) as [link|e2]; simpl; [|by intros [= <-]].
  run. by intros ->.
Qed.

(** Unlike a fetch that fails, a course that cannot be read ends the
    batch: when its title is not a string (or the course is not an object),
    [main] raises before it makes the course directory; when its materials
    cannot be listed, [main] raises once the directory is made and the
    course announced. The courses that follow are not processed and
    completion is not reported. *)
Theorem ill_typed_course_aborts json_data base_dir data before course after e w0 w :
  json_loads E json_data = Some data →
  catalog_courses data = Ok (before ++ course :: after) →
  (os_makedirs base_dir;; for_each before (process_course E base_dir)) w0
  = (Ok tt, w) →
  (course_title_of course = Raise e →
   main E json_data base_dir w0 = (Raise e, w))
  ∧ (∀ course_dir w1,
       enter_course base_dir course w = (Ok course_dir, w1) →
       course_materials course = Raise e →
       main E json_data base_dir w0 = (Raise e, w1)).
Proof.
  intros Hloads Hcat Hprefix.
  apply bind_ok_inv in Hprefix as ([] & wa & Hbase & Hbefore).
  assert (∀ w', process_course E base_dir course w = (Raise e, w') →
                main E json_data base_dir w0 = (Raise e, w')) as Hmain.
  { intros w' Hcourse. unfold main. erewrite bind_ok by done.
    unfold parse. rewrite Hloads. erewrite bind_ok by reflexivity.
    rewrite Hcat. erewrite bind_ok by reflexivity.
    apply bind_raise. by eapply for_each_raise. }
  split.
  - intros Htitle. apply Hmain. unfold process_course, enter_course.
    rewrite Htitle. reflexivity.
  - intros course_dir w1 Henter Hmaterials. apply Hmain.
    unfold process_course. erewrite bind_ok by done.
    rewrite Hmaterials. reflexivity.
Qed.

(** Unlike a fetch that fails, a material that cannot be read ends the
    batch: when its file name is not a string, or its link is neither empty
    nor a string, or the identifier of its course is not a string (or the
    material is not an object), [main] raises when it reaches the material,
    with nothing requested for it; the materials and courses that follow
    are not processed and completion is not reported. *)
Theorem ill_typed_material_aborts json_data base_dir data before course after
    title earlier material later e w0 w :
  json_loads E json_data = Some data →
  catalog_courses data = Ok (before ++ course :: after) →
  course_title_of course = Ok title →
  course_materials course = Ok (earlier ++ material :: later) →
  (os_makedirs base_dir;;
   for_each before (process_course E base_dir);;
   enter_course base_dir course;;
   for_each earlier (process_material E course (path_join base_dir title))) w0
  = (Ok tt, w) →
  material_check course material = Raise e →
  main E json_data base_dir w0 = (Raise e, w).
Proof.
  intros Hloads Hcat Ht Hms Hprefix Hcheck.
  apply bind_ok_inv in Hprefix as ([] & wa & Hbase & Hprefix).
  apply bind_ok_inv in Hprefix as ([] & wb & Hbefore & Hprefix).
  apply bind_ok_inv in Hprefix as (course_dir & wc & Henter & Hearlier).
  unfold main. erewrite bind_ok by done.
  unfold parse. rewrite Hloads. erewrite bind_ok by reflexivity.
  rewrite Hcat. erewrite bind_ok by reflexivity.
  apply bind_raise. eapply for_each_raise; [done|].
  destruct (enter_course_ok _ _ _ _ _ _ Ht Henter) as [-> _].
  unfold process_course. erewrite bind_ok by done.
  rewrite Hms. erewrite bind_ok by reflexivity.
  eapply for_each_raise; [done|]. by apply process_material_check.
Qed.

(** ** The footprint of one fetch *)


(** ** The report of completion *)

#[local] Instance unfinished_preorder : PreOrder unfinished.
Proof.
  split.
  - intros w. exists []. split; [by rewrite app_nil_r|set_solver].
  - intros w1 w2 w3 (l1 & H1 & Hn1) (l2 & H2 & Hn2). exists (l1 ++ l2).
    split; [by rewrite H2, H1, (assoc_L (++))|].
    rewrite elem_of_app. tauto.
Qed.





End Properties.

(** * Examples

    Each property that has hypotheses, applied to the example run-time; and
    runs on which a sentence of the specification fails as it is written. *)

Lemma placeholder_is_skipped_witness :
  process_material Sample.env Sample.algo (lit "downloads/Algo 101")
    (Sample.material "f" "http://x/u1") Sample.empty
  = (Ok tt, Sample.empty).
Proof.
  apply (placeholder_is_skipped Sample.env Sample.algo (lit "downloads/Algo 101")
           (Sample.material "f" "http://x/u1") (lit "f") (lit "http://x/u1")).
  - vm_compute. reflexivity.
  - vm_compute. reflexivity.
  - right. exists (lit "u1"). split; vm_compute; reflexivity.
Defined.

Lemma course_without_uuid_skips_all_witness :
  for_each [Sample.material "a" "http://x/notes1.pdf"; Sample.undeclared]
    (process_material Sample.env Sample.anonymous (lit "downloads/Anon"))
    Sample.empty
  = (Ok tt, Sample.empty).
Proof.
  apply (course_without_uuid_skips_all Sample.env).
  - vm_compute. reflexivity.
  - repeat constructor.
    + exists (lit "a"), (lit "http://x/notes1.pdf"). split; vm_compute; reflexivity.
    + exists (lit "unknown_file"), (lit "http://x/notes1.pdf").
      split; vm_compute; reflexivity.
Defined.




Lemma malformed_document_exits_early_witness :
  ∃ w', script Sample.env Sample.bad_arguments Sample.empty = (1, w')
        ∧ dirs w' = dirs Sample.empty
        ∧ files w' = files Sample.empty
        ∧ trace w' = trace Sample.empty ++ [EvPrint MsgInvalidJson].
Proof.
  apply (malformed_document_exits_early Sample.env Sample.bad_arguments
           Sample.empty (lit "{not json") Sample.empty);
    vm_compute; reflexivity.
Defined.






Lemma exit_status_witness :
  (script Sample.env Sample.bad_arguments Sample.empty).1 = 1.
Proof.
  apply (exit_status Sample.env Sample.bad_arguments Sample.empty
           (lit "{not json") Sample.empty).
  vm_compute. reflexivity.
Defined.




Lemma link_that_is_no_string_witness :
  process_material Sample.env_more Sample.odd (lit "downloads/O") Sample.numbered
    Sample.empty
  = (if py_truthy (JNum false) then Raise AttributeError else Ok tt, Sample.empty).
Proof.
  apply (link_that_is_no_string Sample.env_more Sample.odd (lit "downloads/O")
           Sample.numbered (lit "n") (JNum false) Sample.empty).
  - vm_compute. reflexivity.
  - vm_compute. reflexivity.
  - intros url. discriminate.
Defined.

Lemma input_not_acquired_witness :
  ∃ w', script Sample.env Sample.missing_arguments Sample.empty = (1, w')
        ∧ dirs w' = dirs Sample.empty
        ∧ files w' = files Sample.empty
        ∧ requested (trace w') = requested (trace Sample.empty).
Proof.
  apply (input_not_acquired Sample.env Sample.missing_arguments Sample.empty).
  - vm_compute. reflexivity.
  - right. exists (lit "missing.json"). split; [vm_compute; reflexivity|].
    left. apply lookup_empty.
Defined.



Lemma ill_typed_course_aborts_witness :
  main Sample.env_more
    (Sample.render (Sample.catalog [Sample.course_b; Sample.untitled; Sample.algo]))
    Sample.downloads Sample.empty
  = (Raise AttributeError, Sample.untitled_reached).
Proof.
  apply (ill_typed_course_aborts Sample.env_more
           (Sample.render (Sample.catalog [Sample.course_b; Sample.untitled; Sample.algo]))
           Sample.downloads
           (Sample.catalog [Sample.course_b; Sample.untitled; Sample.algo])
           [Sample.course_b] Sample.untitled [Sample.algo] AttributeError
           Sample.empty Sample.untitled_reached);
    vm_compute; reflexivity.
Defined.

Lemma ill_typed_material_aborts_witness :
  main Sample.env_more (Sample.render (Sample.catalog [Sample.odd; Sample.algo]))
    Sample.downloads Sample.empty
  = (Raise AttributeError, Sample.numbered_reached).
Proof.
  apply (ill_typed_material_aborts Sample.env_more
           (Sample.render (Sample.catalog [Sample.odd; Sample.algo]))
           Sample.downloads (Sample.catalog [Sample.odd; Sample.algo])
           [] Sample.odd [Sample.algo] (lit "O")
           [Sample.material "skip" "http://x/uo"] Sample.numbered
           [Sample.material "late" "http://x/gone"] AttributeError
           Sample.empty Sample.numbered_reached);
    vm_compute; reflexivity.
Defined.

